(** * Checkpoint bridge of nemo.lightning.io.api

    A shallow embedding of [load_context], [import_ckpt],
    [load_connector_from_trainer_ckpt], [_verify_peft_export] and
    [export_ckpt] from [src/nemo/lightning/io/api.py].

    The module is orchestration code: it computes a few paths and calls
    collaborators (the object-graph loader, the converter registry, the
    converters, the ModelOpt export route, the filesystem).  The embedding
    keeps the control flow of the source and makes the collaborators
    explicit: every call to one of them is recorded as an event, may change
    the world, and may raise. *)

From Stdlib Require Import Ascii String.
From stdpp Require Import base strings list gmap.

Open Scope string_scope.
Open Scope nat_scope.

(** ** pathlib paths (POSIX flavour)

    A [Path] is kept the way pathlib keeps it after parsing: the root
    (none, "/" or "//") and the list of remaining segments. *)
Module PurePath.

Inductive Root := NoRoot | Slash | DoubleSlash.

Record Path := mkPath { path_root : Root; path_tail : list string }.

#[global] Instance Root_eq_dec : EqDecision Root.
Proof. solve_decision. Defined.

#[global] Instance Path_eq_dec : EqDecision Path.
Proof. solve_decision. Defined.

(** [str.split('/')]: the segment being read is [cur]. *)
Fixpoint split_sep (cur s : string) : list string :=
  match s with
  | EmptyString => [cur]
  | String c s' =>
      if Ascii.eqb c "/"%char then cur :: split_sep "" s'
      else split_sep (cur +:+ String c "") s'
  end.

(** [posixpath.splitroot]: one leading slash is the root "/", exactly two
    are the root "//", three or more collapse to "/". *)
Definition splitroot (p : string) : Root * string :=
  match p with
  | String "/" (String "/" (String "/" r)) => (Slash, String "/" (String "/" r))
  | String "/" (String "/" r) => (DoubleSlash, r)
  | String "/" r => (Slash, r)
  | _ => (NoRoot, p)
  end.

(** [PurePath._parse_path]: empty and "." segments are dropped. *)
Definition parse_path (s : string) : Path :=
  let '(r, rel) := splitroot s in
  mkPath r (filter (λ x, x ≠ "" ∧ x ≠ ".") (split_sep "" rel)).

(** [path / key] for a string [key]: a key that starts with a slash
    replaces the path, any other key adds its segments. *)
Definition truediv (p : Path) (key : string) : Path :=
  match key with
  | String "/" _ => parse_path key
  | _ => mkPath (path_root p) (path_tail p ++ path_tail (parse_path key))
  end.

Definition root_parts (r : Root) : list string :=
  match r with
  | NoRoot => []
  | Slash => ["/"]
  | DoubleSlash => ["//"]
  end.

(** [path.parts] *)
Definition parts (p : Path) : list string :=
  root_parts (path_root p) ++ path_tail p.

(** [path.parent]: a path without segments is its own parent. *)
Definition parent (p : Path) : Path :=
  match path_tail p with
  | [] => p
  | _ => mkPath (path_root p) (removelast (path_tail p))
  end.

End PurePath.
Export PurePath.

Notation "p // key" := (truediv p key) (at level 40, left associativity).

(** ** Exceptions and results *)

Inductive exn :=
| FileNotFoundError (msg : string)
| ValueError (msg : string)
| IndexError (msg : string)
| OtherError (name msg : string).

Inductive res (A : Type) :=
| Ret (a : A)
| Raise (e : exn).
Arguments Ret {A} a.
Arguments Raise {A} e.

(** The message of the PEFT guard, an f-string over the checkpoint path. *)
Definition str_of_root (r : Root) : string :=
  match r with NoRoot => "" | Slash => "/" | DoubleSlash => "//" end.

Fixpoint join_sep (l : list string) : string :=
  match l with
  | [] => ""
  | [x] => x
  | x :: l' => x +:+ "/" +:+ join_sep l'
  end.

(** [str(path)] *)
Definition str_of_path (p : Path) : string :=
  match path_root p, path_tail p with
  | NoRoot, [] => "."
  | r, t => str_of_root r +:+ join_sep t
  end.

Definition nl : string := String (ascii_of_nat 10) "".

Definition peft_message (path : Path) : string :=
  "Your checkpoint " +:+ nl +:+ "`" +:+ str_of_path path +:+ "`" +:+ nl +:+
  "contains PEFT weights, but your specified export target `hf` should be " +:+
  "used for full model checkpoints. " +:+
  nl +:+ "If you want to convert NeMo 2 PEFT to Hugging Face PEFT checkpoint, set `target='hf-peft'`. " +:+
  "If you want to merge LoRA weights back to the base model and export the merged full model, " +:+
  "run `llm.peft.merge_lora` first before exporting. See " +:+
  "https://docs.nvidia.com/nemo-framework/user-guide/latest/sft_peft/peft_nemo2.html for more details.".

Definition not_connector_message : string :=
  "Model must be an instance of ConnectorMixin".

(** ** Collaborator calls, events and the effect monad *)

Section Bridge.

(** [W] is the world the collaborators act on (the filesystem, the
    registry, the loaded modules), [Obj] the Python objects a context
    holds (models among them), [Conn] the converter instances
    ([ModelConnector]), [Val] the values of keyword arguments. *)
Context {W Obj Conn Val : Type}.

Local Abbreviation Kwargs := (gmap string Val).

(** One event per call that leaves the module. *)
Inductive Event :=
| Load (path : Path) (subpath : option string) (build : bool)
| ModelImporter (model : Obj) (source : string)
| ImporterCall (importer : Conn) (overwrite : bool)
    (output_path : option Path) (kwargs : Kwargs)
| OnImportCkpt (importer : Conn) (model : Obj)
| ModelExporter (model : Obj) (target : string) (path : Path)
| ExporterCall (exporter : Conn) (overwrite : bool)
    (output_path : Path) (kwargs : Kwargs)
| ExportHfCheckpoint (path output_path : Path) (kwargs : Kwargs)
| LoadConnector (path : Path) (target : string)
| PathExists (path : Path).

(** A converter instance is created by [model.importer], [model.exporter]
    or by a caller-supplied [load_connector]. *)
Definition creates_converter (ev : Event) : bool :=
  match ev with
  | ModelImporter _ _ | ModelExporter _ _ _ | LoadConnector _ _ => true
  | _ => false
  end.

(** A converter instance is invoked by calling it. *)
Definition invokes_converter (ev : Event) : bool :=
  match ev with
  | ImporterCall _ _ _ _ | ExporterCall _ _ _ _ => true
  | _ => false
  end.

Definition count (f : Event → bool) (evs : list Event) : nat :=
  length (List.filter f evs).

(** What a run leaves behind: its result, the world after it and the
    collaborator calls it made, oldest first. *)
Record Outcome (A : Type) := mkOutcome {
  result : res A;
  final : W;
  events : list Event
}.
Arguments mkOutcome {A}.
Arguments result {A}.
Arguments final {A}.
Arguments events {A}.

Definition M (A : Type) : Type := W → Outcome A.

Definition ret {A} (a : A) : M A := λ w, mkOutcome (Ret a) w [].

Definition raise {A} (e : exn) : M A := λ w, mkOutcome (Raise e) w [].

Definition bind {A B} (m : M A) (k : A → M B) : M B := λ w,
  let o := m w in
  match result o with
  | Ret a =>
      let o' := k a (final o) in
      mkOutcome (result o') (final o') (events o ++ events o')
  | Raise e => mkOutcome (Raise e) (final o) (events o)
  end.

(** [try: m  except FileNotFoundError: handler]; any other exception of
    [m], and every exception of [handler], goes to the caller. *)
Definition try_except_FileNotFoundError {A} (m handler : M A) : M A := λ w,
  let o := m w in
  match result o with
  | Raise (FileNotFoundError _) =>
      let o' := handler (final o) in
      mkOutcome (result o') (final o') (events o ++ events o')
  | _ => o
  end.

(** A call to a collaborator [f], recorded as [ev]. *)
Definition call {A} (ev : Event) (f : W → res A * W) : M A := λ w,
  mkOutcome (f w).1 (f w).2 [ev].

(** A read of the world that cannot fail, recorded as [ev]. *)
Definition query {A} (ev : Event) (f : W → A) : M A := λ w,
  mkOutcome (Ret (f w)) w [ev].

Notation "'let*' x := m 'in' k" := (bind m (λ x, k))
  (at level 10, x name, m at level 100, k at level 200).

(** The collaborators of the module, none of which it defines:
    [isinstance(model, ConnectorMixin)], [mixin.load], the methods of
    [ConnectorMixin] and [ModelConnector], ModelOpt's
    [export_hf_checkpoint] and [Path.exists]. *)
Record Collaborators := {
  isinstance_ConnectorMixin : Obj → bool;
  load : Path → option string → bool → W → res Obj * W;
  importer : Obj → string → W → res Conn * W;
  importer_call : Conn → bool → option Path → Kwargs → W → res Path * W;
  on_import_ckpt : Conn → Obj → W → res Val * W;
  exporter : Obj → string → Path → W → res Conn * W;
  exporter_call : Conn → bool → Path → Kwargs → W → res Path * W;
  export_hf_checkpoint : Path → Path → Kwargs → W → res (option Path) * W;
  path_exists : Path → W → bool
}.

Context (C : Collaborators).

(** ** The functions of api.py *)

(** [tuple[-1]] *)
Definition index_last (t : list string) : M string :=
  match last t with
  | Some x => ret x
  | None => raise (IndexError "tuple index out of range")
  end.

(** The path [load_context] retries with. *)
Definition alternate_layout (path : Path) (last_part : string) : Path :=
  if decide (last_part = "context") then parent path else path // "context".

(** [load_context(path, subpath=None, build=True)]; [path] is a [Path], on
    which the conversion of lines 55-56 does nothing. *)
Definition load_context (path : Path) (subpath : option string)
    (build : bool) : M Obj :=
  try_except_FileNotFoundError
    (call (Load path subpath build) (load C path subpath build))
    (let* last_part := index_last (parts path) in
     let path := alternate_layout path last_part in
     call (Load path subpath build) (load C path subpath build)).

(** [import_ckpt(model, source, output_path=None, overwrite=False, **kwargs)] *)
Definition import_ckpt (model : Obj) (source : string)
    (output_path : option Path) (overwrite : bool) (kwargs : Kwargs)
    : M Path :=
  if negb (isinstance_ConnectorMixin C model) then
    raise (ValueError not_connector_message)
  else
    let* importer := call (ModelImporter model source) (importer C model source) in
    let* ckpt_path := call (ImporterCall importer overwrite output_path kwargs)
                   (importer_call C importer overwrite output_path kwargs) in
    let* _ := call (OnImportCkpt importer model) (on_import_ckpt C importer model) in
    ret ckpt_path.

(** [load_connector_from_trainer_ckpt(path, target)] *)
Definition load_connector_from_trainer_ckpt (path : Path) (target : string)
    : M Conn :=
  let* model := load_context path (Some "model") true in
  if negb (isinstance_ConnectorMixin C model) then
    raise (ValueError not_connector_message)
  else
    call (ModelExporter model target path) (exporter C model target path).

(** [_verify_peft_export(path, target)]; [and] does not look at the
    filesystem when the target is not "hf". *)
Definition _verify_peft_export (path : Path) (target : string) : M unit :=
  let* found := (if decide (target = "hf")
            then query (PathExists (path // "weights" // "adapter_metadata.json"))
                   (path_exists C (path // "weights" // "adapter_metadata.json"))
            else ret false) in
  if found : bool then raise (ValueError (peft_message path)) else ret tt.

(** A [load_connector] passed by the caller: one opaque call. *)
Definition custom_load_connector (f : Path → string → W → res Conn * W)
    (path : Path) (target : string) : M Conn :=
  call (LoadConnector path target) (f path target).

(** [export_ckpt(path, target, output_path=None, overwrite=False,
    load_connector=load_connector_from_trainer_ckpt,
    modelopt_export_kwargs=None, **kwargs)].  A [Path] is always true, so
    [output_path or Path(path) / target] is [output_path] unless it is
    [None]. *)
Definition export_ckpt (path : Path) (target : string)
    (output_path : option Path) (overwrite : bool)
    (load_connector : Path → string → M Conn)
    (modelopt_export_kwargs : option Kwargs) (kwargs : Kwargs) : M Path :=
  let _output_path := default (path // target) output_path in
  let* output := (if decide (target = "hf") then
               let modelopt_export_kwargs := default ∅ modelopt_export_kwargs in
               (* First try to export via ModelOpt route. *)
               call (ExportHfCheckpoint path _output_path modelopt_export_kwargs)
                 (export_hf_checkpoint C path _output_path modelopt_export_kwargs)
             else ret None) in
  match output with
  | Some output => ret output
  | None =>
      let* _ := _verify_peft_export path target in
      let* exporter := load_connector path target in
      call (ExporterCall exporter overwrite _output_path kwargs)
        (exporter_call C exporter overwrite _output_path kwargs)
  end.

(** ** Notions used to state the properties *)

(** The effective output path of an export. *)
Definition effective_output_path (path : Path) (target : string)
    (output_path : option Path) : Path :=
  match output_path with
  | Some p => p
  | None => path // target
  end.

(** [export_ckpt] reaches its generic route from world [w] when the target
    is not "hf", or when the ModelOpt route declined and the guard found no
    adapter metadata; [w1] is the world at that point and [evs] the calls
    made so far. *)
Inductive reaches_generic_route (path : Path) (target : string)
    (output_path : option Path) (modelopt_export_kwargs : option Kwargs)
    (w : W) : W → list Event → Prop :=
| generic_other_target :
    target ≠ "hf" →
    reaches_generic_route path target output_path modelopt_export_kwargs w w []
| generic_after_modelopt w1 :
    target = "hf" →
    export_hf_checkpoint C path
      (effective_output_path path target output_path)
      (default ∅ modelopt_export_kwargs) w = (Ret None, w1) →
    path_exists C (path // "weights" // "adapter_metadata.json") w1 = false →
    reaches_generic_route path target output_path modelopt_export_kwargs w w1
      [ExportHfCheckpoint path (effective_output_path path target output_path)
         (default ∅ modelopt_export_kwargs);
       PathExists (path // "weights" // "adapter_metadata.json")].

End Bridge.

Arguments mkOutcome {W Obj Conn Val A}.
Arguments result {W Obj Conn Val A}.
Arguments final {W Obj Conn Val A}.
Arguments events {W Obj Conn Val A}.

(** The marker file of a PEFT checkpoint. *)
Definition adapter_metadata (path : Path) : Path :=
  mkPath (path_root path)
    (path_tail path ++ ["weights"; "adapter_metadata.json"]).

(** ** The loader on a disk of files

    Modelled from the spec: the object-graph loader [load] of
    [nemo.lightning.io.mixin] is not part of the sources.  The spec gives
    it as [load(path, output_type, subpath, build) -> object | config-tree],
    raising a not-found error on a missing file, over a context directory
    that contains the serialization file; the docstring of [load_context]
    takes "the json-file or directory containing 'io.json'".  [files] reads
    the regular files of a world and [decode] builds the object the file
    describes. *)
Definition spec_load {W Obj Content : Type}
    (files : W → Path → option Content)
    (decode : Content → option string → bool → Obj)
    (path : Path) (subpath : option string) (build : bool) (w : W)
    : res Obj * W :=
  match files w (path // "io.json") with
  | Some c => (Ret (decode c subpath build), w)
  | None =>
      match files w path with
      | Some c => (Ret (decode c subpath build), w)
      | None =>
          (Raise (FileNotFoundError
                    ("No such file: '" +:+ str_of_path path +:+ "'")), w)
      end
  end.

(** ** A concrete installation, to run the functions on *)
Module Scenario.

Inductive PyObj :=
| GPTModel          (* a LightningModule with ConnectorMixin *)
| PlainModule.      (* a LightningModule without it *)

Inductive Connector :=
| HFImporter (source : string)
| HFExporter (target : string) (path : Path).

(** The regular files of the disk with the model each io.json describes. *)
Definition Disk := list (Path * PyObj).

Definition read (d : Disk) (p : Path) : option PyObj :=
  snd <$> List.find (λ f, bool_decide (f.1 = p)) d.

Definition decode (c : PyObj) (subpath : option string) (build : bool)
    : PyObj := c.

Definition imported : Path := parse_path "/models/imported".

(** Importers write their output; exporters and the hook leave the disk
    alone; the ModelOpt route takes only checkpoints that carry a
    [modelopt_state] next to their weights. *)
Definition collaborators : @Collaborators Disk PyObj Connector string := {|
  isinstance_ConnectorMixin m :=
    match m with GPTModel => true | PlainModule => false end;
  load := spec_load read decode;
  importer m source d := (Ret (HFImporter source), d);
  importer_call c overwrite output_path kwargs d :=
    (Ret (default imported output_path),
     (default imported output_path // "context" // "io.json", GPTModel) :: d);
  on_import_ckpt c m d := (Ret "", d);
  exporter m target path d := (Ret (HFExporter target path), d);
  exporter_call c overwrite output_path kwargs d := (Ret output_path, d);
  export_hf_checkpoint path output_path kwargs d :=
    (Ret (match read d (path // "weights" // "modelopt_state") with
          | Some _ => Some output_path
          | None => None
          end), d);
  path_exists p d := bool_decide (is_Some (read d p))
|}.

Definition ckpt : Path := parse_path "/results/ckpt".

(** A full checkpoint in the current layout. *)
Definition full_disk : Disk :=
  [(ckpt // "context" // "io.json", GPTModel)].

(** A PEFT checkpoint: adapter weights and their metadata. *)
Definition peft_disk : Disk :=
  [(ckpt // "context" // "io.json", GPTModel);
   (ckpt // "weights" // "adapter_metadata.json", GPTModel)].

(** A PEFT checkpoint that ModelOpt has quantized. *)
Definition quantized_peft_disk : Disk :=
  (ckpt // "weights" // "modelopt_state", GPTModel) :: peft_disk.

(** A checkpoint whose trainer context holds a module without converters. *)
Definition plain_disk : Disk :=
  [(ckpt // "context" // "io.json", PlainModule)].

(** A checkpoint directory that is itself called "context" and keeps its
    serialized context in the current layout, one level below. *)
Definition nested : Path := parse_path "runs/context".

Definition nested_disk : Disk :=
  [(nested // "context" // "io.json", GPTModel)].

(** The current directory, [Path(".")]. *)
Definition cwd : Path := parse_path ".".

Definition cwd_disk : Disk :=
  [(cwd // "context" // "io.json", GPTModel)].

End Scenario.

(** ** An installation whose collaborators can fail *)
Module Strict.

Import Scenario.

Definition locked : Path := parse_path "/locked".

(** The loader cannot read under [/locked]; the registry knows no importer
    for an empty source; an importer refuses to write over an existing
    checkpoint unless [overwrite] is set; the hook of an importer for a
    source without tokenizer fails; ModelOpt rejects an unknown dtype with
    an error. *)
Definition collaborators : @Collaborators Disk PyObj Connector string := {|
  isinstance_ConnectorMixin := isinstance_ConnectorMixin Scenario.collaborators;
  load path subpath build d :=
    if decide (path = locked)
    then (Raise (OtherError "PermissionError" "Permission denied: '/locked'"), d)
    else spec_load read decode path subpath build d;
  importer m source d :=
    if decide (source = "")
    then (Raise (ValueError "No importer found for source"), d)
    else (Ret (HFImporter source), d);
  importer_call c overwrite output_path kwargs d :=
    match read d (default imported output_path // "context" // "io.json") with
    | Some _ =>
        if overwrite
        then (Ret (default imported output_path), d)
        else (Raise (OtherError "FileExistsError" "Output path exists"), d)
    | None =>
        (Ret (default imported output_path),
         (default imported output_path // "context" // "io.json", GPTModel) :: d)
    end;
  on_import_ckpt c m d :=
    match c with
    | HFImporter "hf://no/tokenizer" =>
        (Raise (OtherError "OSError" "Can't load tokenizer"), d)
    | _ => (Ret "", d)
    end;
  exporter := exporter Scenario.collaborators;
  exporter_call := exporter_call Scenario.collaborators;
  export_hf_checkpoint path output_path kwargs d :=
    match kwargs !! "export_dtype" with
    | Some "int3" => (Raise (ValueError "Unsupported export dtype"), d)
    | _ => export_hf_checkpoint Scenario.collaborators path output_path kwargs d
    end;
  path_exists := path_exists Scenario.collaborators
|}.

(** A checkpoint in the layout without a context directory. *)
Definition old_layout_disk : Disk := [(ckpt // "io.json", GPTModel)].

End Strict.

(** ** Properties of the bridge, for arbitrary collaborators *)

Section Properties.

Context {W Obj Conn Val : Type} (C : @Collaborators W Obj Conn Val).

Local Abbreviation Kwargs := (gmap string Val).
Local Abbreviation M := (@M W Obj Conn Val).
Local Abbreviation Outcome := (@Outcome W Obj Conn Val).

Lemma adapter_metadata_truediv (path : Path) :
  path // "weights" // "adapter_metadata.json" = adapter_metadata path.
Proof.
  unfold adapter_metadata. cbn. by rewrite <- app_assoc.
Qed.

(** A collaborator call that returns runs the continuation in the world
    it left. *)
Lemma bind_call_Ret {A B} ev (f : W → res A * W) (k : A → M B) w a w1 :
  f w = (Ret a, w1) →
  bind (call ev f) k w =
    mkOutcome (result (k a w1)) (final (k a w1)) (ev :: events (k a w1)).
Proof. intros Hf. unfold bind, call. rewrite Hf. reflexivity. Qed.

(** A collaborator call that raises ends the run. *)
Lemma bind_call_Raise {A B} ev (f : W → res A * W) (k : A → M B) w e w1 :
  f w = (Raise e, w1) →
  bind (call ev f) k w = mkOutcome (Raise e) w1 [ev].
Proof. intros Hf. unfold bind, call. rewrite Hf. reflexivity. Qed.

Lemma bind_ret {A B} (a : A) (k : A → M B) w :
  bind (ret a) k w = mkOutcome (result (k a w)) (final (k a w)) (events (k a w)).
Proof. reflexivity. Qed.

Lemma outcome_eta {A} (o : Outcome A) :
  mkOutcome (result o) (final o) (events o) = o.
Proof. by destruct o. Qed.

(** The guard, case by case. *)
Lemma _verify_peft_export_other path target w :
  target ≠ "hf" →
  _verify_peft_export C path target w = mkOutcome (Ret tt) w [].
Proof.
  intros Hne. unfold _verify_peft_export.
  destruct (decide (target = "hf")) as [->|_]; [done|]. reflexivity.
Qed.

Lemma _verify_peft_export_hf path w :
  _verify_peft_export C path "hf" w =
    mkOutcome
      (if path_exists C (path // "weights" // "adapter_metadata.json") w
       then Raise (ValueError (peft_message path)) else Ret tt)
      w [PathExists (path // "weights" // "adapter_metadata.json")].
Proof.
  unfold _verify_peft_export.
  destruct (decide ("hf" = "hf")) as [_|Hne]; [|done].
  unfold bind, query; simpl.
  by destruct (path_exists C _ w).
Qed.

(** C7: a model that is not a ConnectorMixin makes [import_ckpt] raise the
    ValueError at once: no importer is resolved or invoked, no collaborator
    is called at all, and the world (the filesystem with it) is the one the
    call started in. *)
Theorem import_ckpt_requires_ConnectorMixin
    model source output_path overwrite (kwargs : Kwargs) w :
  isinstance_ConnectorMixin C model = false →
  import_ckpt C model source output_path overwrite kwargs w =
    mkOutcome (Raise (ValueError not_connector_message)) w [].
Proof.
  intros Hmodel. unfold import_ckpt. rewrite Hmodel. reflexivity.
Qed.

(** C5: for a converter-capable model whose importer is resolved, runs and
    is finalised without raising, [import_ckpt] resolves the importer with
    [model.importer(source)], calls it once with [overwrite],
    [output_path] and the extra options, then calls
    [importer.on_import_ckpt(model)], in this order and with no other call,
    and returns the path the importer call returned, whatever the hook
    returns. *)
Theorem import_ckpt_importer_then_hook
    model source output_path overwrite (kwargs : Kwargs) w
    imp w1 ckpt_path w2 hook_value w3 :
  isinstance_ConnectorMixin C model = true →
  importer C model source w = (Ret imp, w1) →
  importer_call C imp overwrite output_path kwargs w1 = (Ret ckpt_path, w2) →
  on_import_ckpt C imp model w2 = (Ret hook_value, w3) →
  import_ckpt C model source output_path overwrite kwargs w =
    mkOutcome (Ret ckpt_path) w3
      [ModelImporter model source;
       ImporterCall imp overwrite output_path kwargs;
       OnImportCkpt imp model].
Proof.
  intros Hmodel Himp Hcall Hhook. unfold import_ckpt. rewrite Hmodel. simpl.
  rewrite (bind_call_Ret _ _ _ _ _ _ Himp).
  rewrite (bind_call_Ret _ _ _ _ _ _ Hcall).
  rewrite (bind_call_Ret _ _ _ _ _ _ Hhook).
  reflexivity.
Qed.

(** C2: with target "hf", when the ModelOpt route [export_hf_checkpoint]
    returns a path, [export_ckpt] returns that path, in the world the route
    left, and the route is the only call made: the guard does not look for
    the adapter metadata, and [load_connector], whatever it is, is not
    called, nor is any exporter. *)
Theorem export_ckpt_modelopt_route
    path output_path overwrite (load_connector : Path → string → M Conn)
    modelopt_export_kwargs (kwargs : Kwargs) w output w1 :
  export_hf_checkpoint C path (effective_output_path path "hf" output_path)
    (default ∅ modelopt_export_kwargs) w = (Ret (Some output), w1) →
  export_ckpt C path "hf" output_path overwrite load_connector
    modelopt_export_kwargs kwargs w =
    mkOutcome (Ret output) w1
      [ExportHfCheckpoint path (effective_output_path path "hf" output_path)
         (default ∅ modelopt_export_kwargs)].
Proof.
  intros Hroute. unfold export_ckpt.
  destruct (decide ("hf" = "hf")) as [_|Hne]; [|done].
  replace (default (path // "hf") output_path)
    with (effective_output_path path "hf" output_path) by by destruct output_path.
  rewrite (bind_call_Ret _ _ _ _ _ _ Hroute). reflexivity.
Qed.

(** C1, amended: with target "hf", when the ModelOpt route declines
    (returns None) and the checkpoint then contains
    weights/adapter_metadata.json, [export_ckpt] raises the ValueError of
    the guard; the calls made are the ModelOpt route and the look-up of the
    marker file, so [load_connector], whatever it is, is not called and no
    exporter is resolved or invoked. *)
Theorem export_ckpt_hf_peft_guard
    path output_path overwrite (load_connector : Path → string → M Conn)
    modelopt_export_kwargs (kwargs : Kwargs) w w1 :
  export_hf_checkpoint C path (effective_output_path path "hf" output_path)
    (default ∅ modelopt_export_kwargs) w = (Ret None, w1) →
  path_exists C (path // "weights" // "adapter_metadata.json") w1 = true →
  export_ckpt C path "hf" output_path overwrite load_connector
    modelopt_export_kwargs kwargs w =
    mkOutcome (Raise (ValueError (peft_message path))) w1
      [ExportHfCheckpoint path (effective_output_path path "hf" output_path)
         (default ∅ modelopt_export_kwargs);
       PathExists (path // "weights" // "adapter_metadata.json")].
Proof.
  intros Hroute Hmarker. unfold export_ckpt.
  destruct (decide ("hf" = "hf")) as [_|Hne]; [|done].
  replace (default (path // "hf") output_path)
    with (effective_output_path path "hf" output_path) by by destruct output_path.
  rewrite (bind_call_Ret _ _ _ _ _ _ Hroute).
  unfold bind. rewrite _verify_peft_export_hf, Hmarker. reflexivity.
Qed.

(** With a target other than "hf" neither the ModelOpt route nor the
    filesystem is consulted. *)
Lemma export_ckpt_other_target
    path target output_path overwrite (load_connector : Path → string → M Conn)
    modelopt_export_kwargs (kwargs : Kwargs) w :
  target ≠ "hf" →
  export_ckpt C path target output_path overwrite load_connector
    modelopt_export_kwargs kwargs w =
    bind (load_connector path target)
      (λ exporter,
         call (ExporterCall exporter overwrite
                 (effective_output_path path target output_path) kwargs)
           (exporter_call C exporter overwrite
              (effective_output_path path target output_path) kwargs)) w.
Proof.
  intros Hne. unfold export_ckpt.
  destruct (decide (target = "hf")) as [->|_]; [done|].
  rewrite bind_ret, outcome_eta.
  unfold bind at 1. rewrite (_verify_peft_export_other _ _ _ Hne).
  cbn [result final events app]. rewrite outcome_eta.
  by destruct output_path.
Qed.

(** C10: the guard raises its ValueError exactly when the target is "hf"
    and weights/adapter_metadata.json exists; for any other target it
    returns without looking at the filesystem, and [export_ckpt] then is
    the resolution of the exporter through [load_connector] followed by its
    invocation, whether or not the checkpoint holds adapter metadata. *)
Theorem peft_guard_only_for_hf :
  (∀ path target w,
     result (_verify_peft_export C path target w)
       = Raise (ValueError (peft_message path)) ↔
     target = "hf" ∧
     path_exists C (path // "weights" // "adapter_metadata.json") w = true) ∧
  (∀ path target w,
     target ≠ "hf" →
     _verify_peft_export C path target w = mkOutcome (Ret tt) w []) ∧
  (∀ path target output_path overwrite
     (load_connector : Path → string → M Conn) modelopt_export_kwargs
     (kwargs : Kwargs) w,
     target ≠ "hf" →
     export_ckpt C path target output_path overwrite load_connector
       modelopt_export_kwargs kwargs w =
       bind (load_connector path target)
         (λ exporter,
            call (ExporterCall exporter overwrite
                    (effective_output_path path target output_path) kwargs)
              (exporter_call C exporter overwrite
                 (effective_output_path path target output_path) kwargs)) w).
Proof.
  split; [|split].
  - intros path target w. destruct (decide (target = "hf")) as [->|Hne].
    + rewrite _verify_peft_export_hf. simpl.
      destruct (path_exists C _ w); split; try done.
      * by intros [_ ?].
    + rewrite (_verify_peft_export_other _ _ _ Hne). simpl.
      split; [done|]. by intros [? _].
  - intros path target w. apply _verify_peft_export_other.
  - intros. by apply export_ckpt_other_target.
Qed.

(** C6: when [export_ckpt] reaches the generic route and [load_connector]
    returns an exporter, the exporter is called once, after every other
    call, with [overwrite], the effective output path and the extra
    options, and its outcome (the path it returns) is the outcome of
    [export_ckpt]; the effective output path is [output_path] when the
    caller gave one and [path / target] otherwise. *)
Theorem export_ckpt_generic_route
    path target output_path overwrite (load_connector : Path → string → M Conn)
    modelopt_export_kwargs (kwargs : Kwargs) w w1 evs exporter w2 evs_lc :
  reaches_generic_route C path target output_path modelopt_export_kwargs
    w w1 evs →
  load_connector path target w1 = mkOutcome (Ret exporter) w2 evs_lc →
  export_ckpt C path target output_path overwrite load_connector
    modelopt_export_kwargs kwargs w =
    mkOutcome
      (exporter_call C exporter overwrite
         (effective_output_path path target output_path) kwargs w2).1
      (exporter_call C exporter overwrite
         (effective_output_path path target output_path) kwargs w2).2
      (evs ++ evs_lc ++
       [ExporterCall exporter overwrite
          (effective_output_path path target output_path) kwargs]) ∧
  (∀ p, output_path = Some p →
        effective_output_path path target output_path = p) ∧
  (output_path = None →
   effective_output_path path target output_path = path // target).
Proof.
  intros Hreach Hlc. split; [|split]; [|by intros p ->|by intros ->].
  destruct Hreach as [Hne|w1 -> Hroute Hmarker].
  - rewrite (export_ckpt_other_target _ _ _ _ _ _ _ _ Hne).
    unfold bind, call. rewrite Hlc. reflexivity.
  - unfold export_ckpt.
    destruct (decide ("hf" = "hf")) as [_|Hne]; [|done].
    replace (default (path // "hf") output_path)
      with (effective_output_path path "hf" output_path)
      by by destruct output_path.
    rewrite (bind_call_Ret _ _ _ _ _ _ Hroute).
    unfold bind, call. rewrite _verify_peft_export_hf, Hmarker.
    cbn [result final events]. rewrite Hlc. reflexivity.
Qed.

(** What [load_context] does after a first not-found error, on a path
    with at least one part. *)
Lemma load_context_retry path subpath build w msg w1 last_part :
  load C path subpath build w = (Raise (FileNotFoundError msg), w1) →
  last (parts path) = Some last_part →
  load_context C path subpath build w =
    mkOutcome
      (load C (alternate_layout path last_part) subpath build w1).1
      (load C (alternate_layout path last_part) subpath build w1).2
      [Load path subpath build;
       Load (alternate_layout path last_part) subpath build].
Proof.
  intros Hfirst Hlast.
  unfold load_context, try_except_FileNotFoundError, bind, call, index_last.
  rewrite Hfirst. cbn [fst snd result final events]. rewrite Hlast.
  reflexivity.
Qed.

(** A first attempt that does not raise FileNotFoundError is the whole
    run. *)
Lemma load_context_first_attempt path subpath build w r w1 :
  load C path subpath build w = (r, w1) →
  (∀ msg, r ≠ Raise (FileNotFoundError msg)) →
  load_context C path subpath build w =
    mkOutcome r w1 [Load path subpath build].
Proof.
  intros Hfirst Hr.
  unfold load_context, try_except_FileNotFoundError, bind, call, index_last.
  rewrite Hfirst. cbn [fst snd result final events].
  destruct r as [o|[]]; try reflexivity. by destruct (Hr msg).
Qed.

(** On a path without parts the handler fails on [path.parts[-1]] before it
    can retry. *)
Lemma load_context_no_parts path subpath build w msg w1 :
  load C path subpath build w = (Raise (FileNotFoundError msg), w1) →
  parts path = [] →
  load_context C path subpath build w =
    mkOutcome (Raise (IndexError "tuple index out of range")) w1
      [Load path subpath build].
Proof.
  intros Hfirst Hparts.
  unfold load_context, try_except_FileNotFoundError, bind, call, index_last.
  rewrite Hfirst. cbn [fst snd result final events]. rewrite Hparts.
  reflexivity.
Qed.

(** On a path with at least one part, two not-found errors in a row leave
    the second one to the caller. *)
Lemma load_context_not_found_twice
    path subpath build w msg w1 last_part msg' w2 :
  load C path subpath build w = (Raise (FileNotFoundError msg), w1) →
  last (parts path) = Some last_part →
  load C (alternate_layout path last_part) subpath build w1
    = (Raise (FileNotFoundError msg'), w2) →
  load_context C path subpath build w =
    mkOutcome (Raise (FileNotFoundError msg')) w2
      [Load path subpath build;
       Load (alternate_layout path last_part) subpath build].
Proof.
  intros Hfirst Hlast Hsecond.
  rewrite (load_context_retry _ _ _ _ _ _ _ Hfirst Hlast), Hsecond.
  reflexivity.
Qed.

(** The first call of [load_context] is the load at the given path. *)
Lemma load_context_first_event path subpath build w :
  head (events (load_context C path subpath build w))
    = Some (Load path subpath build).
Proof.
  unfold load_context, try_except_FileNotFoundError, bind, call, index_last.
  destruct (load C path subpath build w) as [[o|[]] w1]; reflexivity.
Qed.

(** [load_context] calls nothing but the loader, at most twice. *)
Lemma load_context_events path subpath build w :
  ∃ alt, events (load_context C path subpath build w) = [Load path subpath build]
       ∨ events (load_context C path subpath build w)
           = [Load path subpath build; Load alt subpath build].
Proof.
  unfold load_context, try_except_FileNotFoundError, bind, call, index_last.
  destruct (load C path subpath build w) as [[o|[]] w1];
    cbn [fst snd result final events]; try (exists path; by left).
  destruct (last (parts path)) as [l|].
  - exists (alternate_layout path l). by right.
  - exists path. by left.
Qed.

(** C8: [load_connector_from_trainer_ckpt] first loads at [path] with
    subpath "model" and build=True; once [load_context] has returned the
    model, a model that is not a ConnectorMixin gives the ValueError with
    no further call, and a ConnectorMixin gives the outcome of
    [model.exporter(target, path)], the one call added, so the exporter is
    returned without being invoked. *)
Theorem load_connector_from_trainer_ckpt_spec path target w model w1 evs :
  load_context C path (Some "model") true w = mkOutcome (Ret model) w1 evs →
  head evs = Some (Load path (Some "model") true) ∧
  (isinstance_ConnectorMixin C model = false →
   load_connector_from_trainer_ckpt C path target w =
     mkOutcome (Raise (ValueError not_connector_message)) w1 evs) ∧
  (isinstance_ConnectorMixin C model = true →
   load_connector_from_trainer_ckpt C path target w =
     mkOutcome (exporter C model target path w1).1
       (exporter C model target path w1).2
       (evs ++ [ModelExporter model target path]) ∧
   count invokes_converter
     (events (load_connector_from_trainer_ckpt C path target w)) = 0).
Proof.
  intros Hctx. split; [|split].
  - pose proof (load_context_first_event path (Some "model") true w) as Hhd.
    by rewrite Hctx in Hhd.
  - intros Hmodel. unfold load_connector_from_trainer_ckpt, bind.
    rewrite Hctx. cbn [result final events]. rewrite Hmodel. simpl.
    by rewrite app_nil_r.
  - intros Hmodel.
    assert (load_connector_from_trainer_ckpt C path target w =
      mkOutcome (exporter C model target path w1).1
        (exporter C model target path w1).2
        (evs ++ [ModelExporter model target path])) as Heq.
    { unfold load_connector_from_trainer_ckpt, bind.
      rewrite Hctx. cbn [result final events]. by rewrite Hmodel. }
    split; [done|]. rewrite Heq. cbn [events].
    destruct (load_context_events path (Some "model") true w) as [alt Hevs].
    rewrite Hctx in Hevs. cbn [events] in Hevs.
    by destruct Hevs as [-> | ->].
Qed.

Lemma count_app (f : Event → bool) (evs evs' : list (@Event Obj Conn Val)) :
  count f (evs ++ evs') = count f evs + count f evs'.
Proof. unfold count. by rewrite List.filter_app, length_app. Qed.

Lemma count_cons (f : Event → bool) ev (evs : list (@Event Obj Conn Val)) :
  count f (ev :: evs) = (if f ev then S (count f evs) else count f evs).
Proof. unfold count. simpl. by destruct (f ev). Qed.

(** Converters in [load_connector_from_trainer_ckpt]: the loader calls are
    not converter calls, and [model.exporter] is called at most once. *)
Lemma load_connector_from_trainer_ckpt_counts path target w :
  count creates_converter
    (events (load_connector_from_trainer_ckpt C path target w)) ≤ 1 ∧
  count invokes_converter
    (events (load_connector_from_trainer_ckpt C path target w)) = 0.
Proof.
  unfold load_connector_from_trainer_ckpt, bind.
  destruct (load_context_events path (Some "model") true w) as [alt Hevs].
  destruct (load_context C path (Some "model") true w) as [[model|e] w1 evs];
    cbn [result final events] in *.
  - destruct (isinstance_ConnectorMixin C model); cbn [negb];
      rewrite !count_app; destruct Hevs as [-> | ->]; cbn; lia.
  - destruct Hevs as [-> | ->]; cbn; lia.
Qed.

(** Converters in [export_ckpt], for any [load_connector] that creates at
    most one converter and invokes none. *)
Lemma export_ckpt_counts
    path target output_path overwrite (load_connector : Path → string → M Conn)
    modelopt_export_kwargs (kwargs : Kwargs) w :
  (∀ w', count creates_converter (events (load_connector path target w')) ≤ 1 ∧
         count invokes_converter (events (load_connector path target w')) = 0) →
  count creates_converter
    (events (export_ckpt C path target output_path overwrite load_connector
               modelopt_export_kwargs kwargs w)) ≤ 1 ∧
  count invokes_converter
    (events (export_ckpt C path target output_path overwrite load_connector
               modelopt_export_kwargs kwargs w)) ≤ 1.
Proof.
  intros Hlc.
  assert (∀ w',
    count creates_converter
      (events (bind (load_connector path target)
         (λ exporter,
            call (ExporterCall exporter overwrite
                    (effective_output_path path target output_path) kwargs)
              (exporter_call C exporter overwrite
                 (effective_output_path path target output_path) kwargs)) w'))
      ≤ 1 ∧
    count invokes_converter
      (events (bind (load_connector path target)
         (λ exporter,
            call (ExporterCall exporter overwrite
                    (effective_output_path path target output_path) kwargs)
              (exporter_call C exporter overwrite
                 (effective_output_path path target output_path) kwargs)) w'))
      ≤ 1) as Hgeneric.
  { intros w'. unfold bind, call. destruct (Hlc w') as [Hc Hi].
    destruct (load_connector path target w') as [[exporter|e] w2 evs];
      cbn [result final events] in *; rewrite ?count_app; cbn; lia. }
  destruct (decide (target = "hf")) as [->|Hne].
  - unfold export_ckpt.
    destruct (decide ("hf" = "hf")) as [_|Hne]; [|done].
    replace (default (path // "hf") output_path)
      with (effective_output_path path "hf" output_path)
      by by destruct output_path.
    destruct (export_hf_checkpoint C path
                (effective_output_path path "hf" output_path)
                (default ∅ modelopt_export_kwargs) w)
      as [[[output|]|e] w1] eqn:Hroute.
    + rewrite (bind_call_Ret _ _ _ _ _ _ Hroute). cbn. lia.
    + rewrite (bind_call_Ret _ _ _ _ _ _ Hroute). cbn [events].
      unfold bind at 1 3. rewrite _verify_peft_export_hf.
      destruct (path_exists C _ w1); cbn [result final events].
      * cbn. lia.
      * destruct (Hgeneric w1) as [Hc Hi].
        cbn [app]. by rewrite !count_cons.
    + rewrite (bind_call_Raise _ _ _ _ _ _ Hroute). cbn. lia.
  - rewrite (export_ckpt_other_target _ _ _ _ _ _ _ _ Hne). apply Hgeneric.
Qed.

(** C9: a run of [import_ckpt] or of [export_ckpt] (with the default
    [load_connector_from_trainer_ckpt] or with a [load_connector] of the
    caller) creates at most one converter instance and calls a converter at
    most once, whatever the collaborators return or raise: there is no
    second resolution and no second invocation, hence no retry. *)
Theorem at_most_one_converter_per_call :
  (∀ model source output_path overwrite (kwargs : Kwargs) w,
     count creates_converter
       (events (import_ckpt C model source output_path overwrite kwargs w)) ≤ 1 ∧
     count invokes_converter
       (events (import_ckpt C model source output_path overwrite kwargs w)) ≤ 1) ∧
  (∀ path target output_path overwrite modelopt_export_kwargs
     (kwargs : Kwargs) w,
     count creates_converter
       (events (export_ckpt C path target output_path overwrite
                  (load_connector_from_trainer_ckpt C)
                  modelopt_export_kwargs kwargs w)) ≤ 1 ∧
     count invokes_converter
       (events (export_ckpt C path target output_path overwrite
                  (load_connector_from_trainer_ckpt C)
                  modelopt_export_kwargs kwargs w)) ≤ 1) ∧
  (∀ f path target output_path overwrite modelopt_export_kwargs
     (kwargs : Kwargs) w,
     count creates_converter
       (events (export_ckpt C path target output_path overwrite
                  (custom_load_connector f)
                  modelopt_export_kwargs kwargs w)) ≤ 1 ∧
     count invokes_converter
       (events (export_ckpt C path target output_path overwrite
                  (custom_load_connector f)
                  modelopt_export_kwargs kwargs w)) ≤ 1).
Proof.
  split; [|split].
  - intros model source output_path overwrite kwargs w.
    unfold import_ckpt.
    destruct (isinstance_ConnectorMixin C model); cbn [negb]; [|cbn; lia].
    unfold bind, call, ret.
    destruct (importer C model source w) as [[imp|e] w1];
      cbn [fst snd result final events]; [|cbn; lia].
    destruct (importer_call C imp overwrite output_path kwargs w1)
      as [[ckpt_path|e] w2];
      cbn [fst snd result final events]; [|cbn; lia].
    destruct (on_import_ckpt C imp model w2) as [[v|e] w3]; cbn; lia.
  - intros. apply export_ckpt_counts.
    intros w'. apply load_connector_from_trainer_ckpt_counts.
  - intros. apply export_ckpt_counts.
    intros w'. cbn. lia.
Qed.

(** C3, amended: on a path with at least one part, after a first
    FileNotFoundError [load_context] loads once more, at the parent when
    the last part is "context" and at [path / "context"] otherwise, and the
    outcome of that second load is its outcome, with no third attempt.
    Over a loader that reads [io.json] from a directory: for a context
    stored at X/context/io.json, [load_context] returns an object when
    called with X/context, and when called with X provided X has a last
    part and it is not "context". *)
Theorem load_context_layout_fallback :
  (∀ path subpath build w msg w1 last_part,
     load C path subpath build w = (Raise (FileNotFoundError msg), w1) →
     last (parts path) = Some last_part →
     load_context C path subpath build w =
       mkOutcome
         (load C (alternate_layout path last_part) subpath build w1).1
         (load C (alternate_layout path last_part) subpath build w1).2
         [Load path subpath build;
          Load (alternate_layout path last_part) subpath build] ∧
     (last_part = "context" → alternate_layout path last_part = parent path) ∧
     (last_part ≠ "context" →
      alternate_layout path last_part = path // "context")) ∧
  (∀ (Content : Type) (files : W → Path → option Content) decode,
     (∀ p s b w, load C p s b w = spec_load files decode p s b w) →
     ∀ X subpath build w c,
       files w (X // "context" // "io.json") = Some c →
       load_context C (X // "context") subpath build w =
         mkOutcome (Ret (decode c subpath build)) w
           [Load (X // "context") subpath build] ∧
       (∀ last_part,
          last (parts X) = Some last_part → last_part ≠ "context" →
          ∃ o, result (load_context C X subpath build w) = Ret o)).
Proof.
  split.
  - intros path subpath build w msg w1 last_part Hfirst Hlast.
    split; [by apply (load_context_retry _ _ _ _ msg)|].
    unfold alternate_layout. split; intros Hl; by case_decide.
  - intros Content files decode Hload X subpath build w c Hstored. split.
    + apply load_context_first_attempt; [|done].
      rewrite Hload. unfold spec_load. by rewrite Hstored.
    + intros last_part Hlast Hne.
      destruct (load C X subpath build w) as [r w1] eqn:Hfirst.
      pose proof Hfirst as Hspec. rewrite Hload in Hspec.
      unfold spec_load in Hspec.
      destruct (files w (X // "io.json")) as [c1|].
      { injection Hspec as <- <-.
        rewrite (load_context_first_attempt _ _ _ _ _ _ Hfirst); [|done].
        by eexists. }
      destruct (files w X) as [c2|].
      { injection Hspec as <- <-.
        rewrite (load_context_first_attempt _ _ _ _ _ _ Hfirst); [|done].
        by eexists. }
      injection Hspec as <- <-.
      rewrite (load_context_retry _ _ _ _ _ _ _ Hfirst Hlast).
      unfold alternate_layout. case_decide; [done|].
      rewrite Hload. unfold spec_load. rewrite Hstored. by eexists.
Qed.

End Properties.

(** ** Runs on the concrete installation *)

Import Scenario.

(** C7 on a module without converters. *)
Lemma import_ckpt_requires_ConnectorMixin_witness :
  isinstance_ConnectorMixin collaborators PlainModule = false ∧
  import_ckpt collaborators PlainModule "hf://mistralai/Mistral-7B-v0.1"
    None false ∅ [] =
    mkOutcome (Raise (ValueError not_connector_message)) [] [].
Proof.
  split; [reflexivity|].
  apply (import_ckpt_requires_ConnectorMixin collaborators). reflexivity.
Defined.

(** C5 on an empty disk: the importer writes the checkpoint. *)
Lemma import_ckpt_importer_then_hook_witness :
  import_ckpt collaborators GPTModel "hf://mistralai/Mistral-7B-v0.1"
    None true {["trust_remote_code" := "True"]} [] =
    mkOutcome (Ret imported)
      [(imported // "context" // "io.json", GPTModel)]
      [ModelImporter GPTModel "hf://mistralai/Mistral-7B-v0.1";
       ImporterCall (HFImporter "hf://mistralai/Mistral-7B-v0.1") true None
         {["trust_remote_code" := "True"]};
       OnImportCkpt (HFImporter "hf://mistralai/Mistral-7B-v0.1") GPTModel].
Proof.
  eapply (import_ckpt_importer_then_hook collaborators); reflexivity.
Defined.

(** C2 on a quantized checkpoint. *)
Lemma export_ckpt_modelopt_route_witness :
  export_ckpt collaborators ckpt "hf" None false
    (load_connector_from_trainer_ckpt collaborators) None ∅
    quantized_peft_disk =
    mkOutcome (Ret (ckpt // "hf")) quantized_peft_disk
      [ExportHfCheckpoint ckpt (ckpt // "hf") ∅].
Proof.
  apply (export_ckpt_modelopt_route collaborators ckpt None). reflexivity.
Defined.

(** C1 as stated fails: the checkpoint holds weights/adapter_metadata.json
    and the target is "hf", yet the ModelOpt route takes the checkpoint and
    [export_ckpt] returns its path instead of raising. *)
Lemma export_ckpt_hf_adapter_metadata_no_error :
  path_exists collaborators (ckpt // "weights" // "adapter_metadata.json")
    quantized_peft_disk = true ∧
  result (export_ckpt collaborators ckpt "hf" None false
            (load_connector_from_trainer_ckpt collaborators) None ∅
            quantized_peft_disk) = Ret (ckpt // "hf") ∧
  ¬ ∃ msg,
      result (export_ckpt collaborators ckpt "hf" None false
                (load_connector_from_trainer_ckpt collaborators) None ∅
                quantized_peft_disk) = Raise (ValueError msg).
Proof.
  split; [reflexivity|]. split; [reflexivity|]. by intros [msg ?].
Qed.

(** C1, amended, on a PEFT checkpoint that ModelOpt does not take. *)
Lemma export_ckpt_hf_peft_guard_witness :
  export_ckpt collaborators ckpt "hf" None false
    (load_connector_from_trainer_ckpt collaborators) None ∅ peft_disk =
    mkOutcome (Raise (ValueError (peft_message ckpt))) peft_disk
      [ExportHfCheckpoint ckpt (ckpt // "hf") ∅;
       PathExists (ckpt // "weights" // "adapter_metadata.json")].
Proof.
  apply (export_ckpt_hf_peft_guard collaborators ckpt None); reflexivity.
Defined.

(** C10 on a PEFT checkpoint exported with target "hf-peft": the guard
    returns although weights/adapter_metadata.json exists, and the export
    is the resolution of the exporter followed by its call. *)
Lemma peft_guard_only_for_hf_witness :
  path_exists collaborators (ckpt // "weights" // "adapter_metadata.json")
    peft_disk = true ∧
  _verify_peft_export collaborators ckpt "hf-peft" peft_disk =
    mkOutcome (Ret tt) peft_disk [] ∧
  export_ckpt collaborators ckpt "hf-peft" None false
    (load_connector_from_trainer_ckpt collaborators) None ∅ peft_disk =
    mkOutcome (Ret (ckpt // "hf-peft")) peft_disk
      [Load ckpt (Some "model") true;
       Load (ckpt // "context") (Some "model") true;
       ModelExporter GPTModel "hf-peft" ckpt;
       ExporterCall (HFExporter "hf-peft" ckpt) false (ckpt // "hf-peft") ∅].
Proof.
  split; [reflexivity|]. split.
  - apply (proj1 (proj2 (peft_guard_only_for_hf collaborators))). discriminate.
  - rewrite (proj2 (proj2 (peft_guard_only_for_hf collaborators))).
    + reflexivity.
    + discriminate.
Defined.

(** C6 on a full checkpoint exported to "hf": ModelOpt declines, the guard
    passes, the default [load_connector] finds the context in the current
    layout and the exporter is called with [path / target]. *)
Lemma export_ckpt_generic_route_witness :
  export_ckpt collaborators ckpt "hf" None true
    (load_connector_from_trainer_ckpt collaborators) None
    {["dtype" := "bf16"]} full_disk =
    mkOutcome (Ret (ckpt // "hf")) full_disk
      ([ExportHfCheckpoint ckpt (ckpt // "hf") ∅;
        PathExists (ckpt // "weights" // "adapter_metadata.json")] ++
       [Load ckpt (Some "model") true;
        Load (ckpt // "context") (Some "model") true;
        ModelExporter GPTModel "hf" ckpt] ++
       [ExporterCall (HFExporter "hf" ckpt) true (ckpt // "hf")
          {["dtype" := "bf16"]}]) ∧
  effective_output_path ckpt "hf" None = ckpt // "hf".
Proof.
  split.
  - apply (proj1 (export_ckpt_generic_route collaborators ckpt "hf" None true
             (load_connector_from_trainer_ckpt collaborators) None
             {["dtype" := "bf16"]} full_disk full_disk _
             (HFExporter "hf" ckpt) full_disk _
             (generic_after_modelopt collaborators ckpt "hf" None None
                full_disk full_disk eq_refl eq_refl eq_refl)
             eq_refl)).
  - apply (proj2 (proj2 (export_ckpt_generic_route collaborators ckpt "hf"
             None true (load_connector_from_trainer_ckpt collaborators) None
             {["dtype" := "bf16"]} full_disk full_disk _
             (HFExporter "hf" ckpt) full_disk _
             (generic_after_modelopt collaborators ckpt "hf" None None
                full_disk full_disk eq_refl eq_refl eq_refl)
             eq_refl))).
    reflexivity.
Defined.

(** C8 on a full checkpoint and on one whose model has no converters. *)
Lemma load_connector_from_trainer_ckpt_spec_witness :
  load_connector_from_trainer_ckpt collaborators ckpt "hf" full_disk =
    mkOutcome (Ret (HFExporter "hf" ckpt)) full_disk
      [Load ckpt (Some "model") true;
       Load (ckpt // "context") (Some "model") true;
       ModelExporter GPTModel "hf" ckpt] ∧
  load_connector_from_trainer_ckpt collaborators ckpt "hf" plain_disk =
    mkOutcome (Raise (ValueError not_connector_message)) plain_disk
      [Load ckpt (Some "model") true;
       Load (ckpt // "context") (Some "model") true].
Proof.
  split.
  - apply (proj1 (proj2 (proj2
      (load_connector_from_trainer_ckpt_spec collaborators ckpt "hf"
         full_disk GPTModel full_disk
         [Load ckpt (Some "model") true;
          Load (ckpt // "context") (Some "model") true]
         eq_refl)) eq_refl)).
  - apply (proj1 (proj2
      (load_connector_from_trainer_ckpt_spec collaborators ckpt "hf"
         plain_disk PlainModule plain_disk
         [Load ckpt (Some "model") true;
          Load (ckpt // "context") (Some "model") true]
         eq_refl)) eq_refl).
Defined.

(** C3 as stated fails: the context is stored at X/context/io.json for
    X = runs/context, and [load_context] called with X looks in
    runs/context, then in runs, and raises FileNotFoundError. *)
Lemma load_context_nested_context_not_found :
  read nested_disk (nested // "context" // "io.json") = Some GPTModel ∧
  load_context collaborators nested None true nested_disk =
    mkOutcome (Raise (FileNotFoundError "No such file: 'runs'")) nested_disk
      [Load nested None true; Load (parse_path "runs") None true] ∧
  ¬ ∃ o, result (load_context collaborators nested None true nested_disk)
           = Ret o.
Proof.
  split; [reflexivity|]. split; [reflexivity|]. by intros [o ?].
Qed.

(** C3, amended, on a full checkpoint: the retry from the checkpoint
    directory, and both ways to name the stored context. *)
Lemma load_context_layout_fallback_witness :
  load_context collaborators ckpt None true full_disk =
    mkOutcome (Ret GPTModel) full_disk
      [Load ckpt None true; Load (ckpt // "context") None true] ∧
  load_context collaborators (ckpt // "context") None true full_disk =
    mkOutcome (Ret GPTModel) full_disk [Load (ckpt // "context") None true] ∧
  ∃ o, result (load_context collaborators ckpt None true full_disk) = Ret o.
Proof.
  split; [|split].
  - apply (proj1 (proj1 (load_context_layout_fallback collaborators)
             ckpt None true full_disk "No such file: '/results/ckpt'"
             full_disk "ckpt" eq_refl eq_refl)).
  - apply (proj1 (proj2 (load_context_layout_fallback collaborators)
             PyObj read decode (λ _ _ _ _, eq_refl)
             ckpt None true full_disk GPTModel eq_refl)).
  - apply (proj2 (proj2 (load_context_layout_fallback collaborators)
             PyObj read decode (λ _ _ _ _, eq_refl)
             ckpt None true full_disk GPTModel eq_refl) "ckpt" eq_refl).
    discriminate.
Defined.

(** C4 at [Path(".")] in a directory that holds no serialized context in
    either layout: the first load raises FileNotFoundError, the handler
    fails on [path.parts[-1]], and the caller gets an IndexError in place of
    the not-found error; no second load is made. *)
Theorem load_context_cwd_IndexError :
  parts cwd = [] ∧
  read [] (cwd // "io.json") = None ∧
  read [] (cwd // "context" // "io.json") = None ∧
  load_context collaborators cwd None true [] =
    mkOutcome (Raise (IndexError "tuple index out of range")) []
      [Load cwd None true].
Proof.
  split; [reflexivity|]. split; [reflexivity|]. split; [reflexivity|].
  apply (load_context_no_parts collaborators cwd None true []
           "No such file: '.'" []); reflexivity.
Qed.

(** The same slip hides a context that is there: from inside a checkpoint
    directory in the current layout, [load_context(Path("."))] raises the
    IndexError instead of loading ./context/io.json. *)
Example load_context_cwd_current_layout :
  read cwd_disk (cwd // "context" // "io.json") = Some GPTModel ∧
  load_context collaborators cwd None true cwd_disk =
    mkOutcome (Raise (IndexError "tuple index out of range")) cwd_disk
      [Load cwd None true].
Proof. split; reflexivity. Qed.

(** On a path with parts the claim of C4 holds: with no context in either
    layout the second not-found error is the one the caller gets. *)
Example load_context_missing_both_layouts :
  load_context collaborators ckpt None true [] =
    mkOutcome (Raise (FileNotFoundError "No such file: '/results/ckpt/context'"))
      [] [Load ckpt None true; Load (ckpt // "context") None true].
Proof.
  apply (load_context_not_found_twice collaborators ckpt None true []
           "No such file: '/results/ckpt'" [] "ckpt"); reflexivity.
Qed.

(** ** Failure paths, fallbacks and options *)

Section Propagation.

Context {W Obj Conn Val : Type} (C : @Collaborators W Obj Conn Val).

Local Abbreviation Kwargs := (gmap string Val).
Local Abbreviation M := (@M W Obj Conn Val).

(** X1: when [import_ckpt] returns a path, the model is a ConnectorMixin
    and the run made exactly three calls: the resolution of the importer,
    its invocation with the arguments of the caller, and the hook on that
    same importer.  A returned path is never one whose hook was skipped. *)
Theorem import_ckpt_returns_inv
    model source output_path overwrite (kwargs : Kwargs) w ckpt_path :
  result (import_ckpt C model source output_path overwrite kwargs w)
    = Ret ckpt_path →
  isinstance_ConnectorMixin C model = true ∧
  ∃ imp,
    events (import_ckpt C model source output_path overwrite kwargs w) =
      [ModelImporter model source;
       ImporterCall imp overwrite output_path kwargs;
       OnImportCkpt imp model].
Proof.
  unfold import_ckpt.
  destruct (isinstance_ConnectorMixin C model); cbn [negb]; [|done].
  unfold bind, call, ret.
  destruct (importer C model source w) as [[imp|e] w1];
    cbn [fst snd result final events]; [|done].
  destruct (importer_call C imp overwrite output_path kwargs w1)
    as [[p|e] w2]; cbn [fst snd result final events]; [|done].
  destruct (on_import_ckpt C imp model w2) as [[v|e] w3];
    cbn [fst snd result final events]; [|done].
  intros _. split; [done|]. by exists imp.
Qed.

(** X2: an exception of [model.importer(source)] or of the importer call
    is the exception of [import_ckpt]; the run stops there, so the
    post-import hook is not called. *)
Theorem import_ckpt_importer_failure
    model source output_path overwrite (kwargs : Kwargs) w :
  isinstance_ConnectorMixin C model = true →
  (∀ e w1,
     importer C model source w = (Raise e, w1) →
     import_ckpt C model source output_path overwrite kwargs w =
       mkOutcome (Raise e) w1 [ModelImporter model source]) ∧
  (∀ imp w1 e w2,
     importer C model source w = (Ret imp, w1) →
     importer_call C imp overwrite output_path kwargs w1 = (Raise e, w2) →
     import_ckpt C model source output_path overwrite kwargs w =
       mkOutcome (Raise e) w2
         [ModelImporter model source;
          ImporterCall imp overwrite output_path kwargs]).
Proof.
  intros Hmodel. unfold import_ckpt. rewrite Hmodel. cbn [negb]. split.
  - intros e w1 Himp. unfold bind, call. by rewrite Himp.
  - intros imp w1 e w2 Himp Hcall. unfold bind, call.
    rewrite Himp. cbn [fst snd result final events]. by rewrite Hcall.
Qed.

(** X3: an exception of the post-import hook is the exception of
    [import_ckpt], raised after the importer has run: the world is the one
    the importer and the hook left, and the path the importer returned is
    not handed to the caller. *)
Theorem import_ckpt_hook_failure
    model source output_path overwrite (kwargs : Kwargs) w
    imp w1 ckpt_path w2 e w3 :
  isinstance_ConnectorMixin C model = true →
  importer C model source w = (Ret imp, w1) →
  importer_call C imp overwrite output_path kwargs w1 = (Ret ckpt_path, w2) →
  on_import_ckpt C imp model w2 = (Raise e, w3) →
  import_ckpt C model source output_path overwrite kwargs w =
    mkOutcome (Raise e) w3
      [ModelImporter model source;
       ImporterCall imp overwrite output_path kwargs;
       OnImportCkpt imp model].
Proof.
  intros Hmodel Himp Hcall Hhook. unfold import_ckpt.
  rewrite Hmodel. cbn [negb]. unfold bind, call.
  rewrite Himp. cbn [fst snd result final events].
  rewrite Hcall. cbn [fst snd result final events].
  by rewrite Hhook.
Qed.

(** X4: only FileNotFoundError starts the fallback: any other exception of
    the first load is the exception of [load_context], and the alternate
    layout is not tried. *)
Theorem load_context_other_error_no_retry path subpath build w e w1 :
  load C path subpath build w = (Raise e, w1) →
  (∀ msg, e ≠ FileNotFoundError msg) →
  load_context C path subpath build w =
    mkOutcome (Raise e) w1 [Load path subpath build].
Proof.
  intros Hfirst He. apply load_context_first_attempt; [done|].
  intros msg [= ->]. by destruct (He msg).
Qed.

(** The parent of a path that ends in a segment drops that segment. *)
Lemma parent_snoc r t x : parent (mkPath r (t ++ [x])) = mkPath r t.
Proof.
  unfold parent. cbn [path_root path_tail].
  destruct (t ++ [x])%list eqn:Happ; [by destruct t|].
  by rewrite <- Happ, removelast_last.
Qed.

(** The path of the retry differs from the path given. *)
Lemma alternate_layout_ne path last_part :
  last (parts path) = Some last_part →
  alternate_layout path last_part ≠ path.
Proof.
  destruct path as [r t]. unfold alternate_layout, parts.
  cbn [path_root path_tail]. intros Hlast.
  case_decide as Hl.
  - subst last_part. destruct (decide (t = [])) as [->|Hne].
    + rewrite app_nil_r in Hlast. by destruct r.
    + destruct (exists_last Hne) as (t' & x & ->).
      rewrite parent_snoc. intros [= Heq].
      assert (length t' = length (t' ++ [x])%list) as Hlen
        by by rewrite <- Heq.
      rewrite length_app in Hlen. simpl in Hlen. lia.
  - intros Heq. apply (f_equal (λ p, length (path_tail p))) in Heq.
    cbn in Heq. rewrite length_app in Heq. simpl in Heq. lia.
Qed.

(** X5: whatever the loader does, [load_context] calls nothing but the
    loader, first at the given path and then at most once more, at a
    different path and with the same [subpath] and [build]. *)
Theorem load_context_at_most_two_loads path subpath build w :
  events (load_context C path subpath build w) = [Load path subpath build] ∨
  ∃ alt,
    alt ≠ path ∧
    events (load_context C path subpath build w) =
      [Load path subpath build; Load alt subpath build].
Proof.
  unfold load_context, try_except_FileNotFoundError, bind, call, index_last.
  destruct (load C path subpath build w) as [[o|[]] w1];
    cbn [fst snd result final events]; try by left.
  destruct (last (parts path)) as [l|] eqn:Hlast; [|by left].
  right. exists (alternate_layout path l).
  split; [by apply alternate_layout_ne|done].
Qed.

(** X6: called with a context directory [X / "context"] that the loader
    does not find, [load_context] falls back to [X] itself, for every [X],
    the current directory included; the outcome is that of the load at
    [X]. *)
Theorem load_context_context_dir_falls_back X subpath build w msg w1 :
  load C (X // "context") subpath build w
    = (Raise (FileNotFoundError msg), w1) →
  load_context C (X // "context") subpath build w =
    mkOutcome (load C X subpath build w1).1 (load C X subpath build w1).2
      [Load (X // "context") subpath build; Load X subpath build].
Proof.
  intros Hfirst.
  assert (last (parts (X // "context")) = Some "context") as Hlast.
  { destruct X as [r t].
    change (mkPath r t // "context") with (mkPath r (t ++ ["context"])).
    unfold parts. cbn [path_root path_tail].
    by rewrite app_assoc, last_snoc. }
  assert (alternate_layout (X // "context") "context" = X) as Halt.
  { unfold alternate_layout. case_decide; [|done].
    destruct X as [r t]. apply parent_snoc. }
  rewrite (load_context_retry C _ _ _ _ _ _ _ Hfirst Hlast), Halt.
  reflexivity.
Qed.

(** X7: the layout without a context directory is still served.  Over a
    loader that reads [io.json] from a directory: for a context stored at
    X/io.json with nothing under X/context, [load_context] called with
    X/context does not find it there, falls back to X and returns the
    stored object. *)
Theorem load_context_old_layout
    (Content : Type) (files : W → Path → option Content) decode
    X subpath build w c :
  (∀ p s b w, load C p s b w = spec_load files decode p s b w) →
  files w (X // "io.json") = Some c →
  files w (X // "context" // "io.json") = None →
  files w (X // "context") = None →
  load_context C (X // "context") subpath build w =
    mkOutcome (Ret (decode c subpath build)) w
      [Load (X // "context") subpath build; Load X subpath build].
Proof.
  intros Hload Hold Hnew Hdir.
  assert (load C (X // "context") subpath build w =
    (Raise (FileNotFoundError
       ("No such file: '" +:+ str_of_path (X // "context") +:+ "'")), w))
    as Hfirst.
  { rewrite Hload. unfold spec_load. by rewrite Hnew, Hdir. }
  rewrite (load_context_context_dir_falls_back _ _ _ _ _ _ Hfirst).
  rewrite Hload. unfold spec_load. by rewrite Hold.
Qed.

(** X8: an exception of the ModelOpt route is not a rejection: with
    target "hf", when [export_hf_checkpoint] raises, [export_ckpt] raises
    the same exception and neither the guard nor [load_connector] nor an
    exporter is reached. *)
Theorem export_ckpt_modelopt_failure
    path output_path overwrite (load_connector : Path → string → M Conn)
    modelopt_export_kwargs (kwargs : Kwargs) w e w1 :
  export_hf_checkpoint C path (effective_output_path path "hf" output_path)
    (default ∅ modelopt_export_kwargs) w = (Raise e, w1) →
  export_ckpt C path "hf" output_path overwrite load_connector
    modelopt_export_kwargs kwargs w =
    mkOutcome (Raise e) w1
      [ExportHfCheckpoint path (effective_output_path path "hf" output_path)
         (default ∅ modelopt_export_kwargs)].
Proof.
  intros Hroute. unfold export_ckpt.
  destruct (decide ("hf" = "hf")) as [_|Hne]; [|done].
  replace (default (path // "hf") output_path)
    with (effective_output_path path "hf" output_path)
    by by destruct output_path.
  by rewrite (bind_call_Raise _ _ _ _ _ _ Hroute).
Qed.

(** On the generic route an exception of [load_connector] ends the run. *)
Lemma export_ckpt_generic_route_raise
    path target output_path overwrite (load_connector : Path → string → M Conn)
    modelopt_export_kwargs (kwargs : Kwargs) w w1 evs e w2 evs_lc :
  reaches_generic_route C path target output_path modelopt_export_kwargs
    w w1 evs →
  load_connector path target w1 = mkOutcome (Raise e) w2 evs_lc →
  export_ckpt C path target output_path overwrite load_connector
    modelopt_export_kwargs kwargs w =
    mkOutcome (Raise e) w2 (evs ++ evs_lc).
Proof.
  intros Hreach Hlc. destruct Hreach as [Hne|w1 -> Hroute Hmarker].
  - rewrite (export_ckpt_other_target C _ _ _ _ _ _ _ _ Hne).
    unfold bind. by rewrite Hlc.
  - unfold export_ckpt.
    destruct (decide ("hf" = "hf")) as [_|Hne]; [|done].
    replace (default (path // "hf") output_path)
      with (effective_output_path path "hf" output_path)
      by by destruct output_path.
    rewrite (bind_call_Ret _ _ _ _ _ _ Hroute).
    unfold bind. rewrite _verify_peft_export_hf, Hmarker.
    cbn [result final events]. by rewrite Hlc.
Qed.

(** X9: with the default [load_connector], when the generic route is
    reached and the model of the checkpoint is not a ConnectorMixin,
    [export_ckpt] raises the ValueError its docstring announces; no
    exporter is resolved or invoked. *)
Theorem export_ckpt_model_without_connector
    path target output_path overwrite modelopt_export_kwargs
    (kwargs : Kwargs) w w1 evs model w2 evs_load :
  reaches_generic_route C path target output_path modelopt_export_kwargs
    w w1 evs →
  load_context C path (Some "model") true w1
    = mkOutcome (Ret model) w2 evs_load →
  isinstance_ConnectorMixin C model = false →
  export_ckpt C path target output_path overwrite
    (load_connector_from_trainer_ckpt C) modelopt_export_kwargs kwargs w =
    mkOutcome (Raise (ValueError not_connector_message)) w2
      (evs ++ evs_load).
Proof.
  intros Hreach Hctx Hmodel.
  apply (export_ckpt_generic_route_raise _ _ _ _ _ _ _ _ _ _ _ _ _ Hreach).
  unfold load_connector_from_trainer_ckpt, bind. rewrite Hctx.
  cbn [result final events]. rewrite Hmodel. cbn [negb raise events].
  by rewrite app_nil_r.
Qed.

(** X10: with the default [load_connector], when the generic route is
    reached and the trainer context is found in neither layout,
    [export_ckpt] raises the loader's second FileNotFoundError; the two
    loads are the only further calls. *)
Theorem export_ckpt_missing_context
    path target output_path overwrite modelopt_export_kwargs
    (kwargs : Kwargs) w w1 evs msg w2 last_part msg' w3 :
  reaches_generic_route C path target output_path modelopt_export_kwargs
    w w1 evs →
  load C path (Some "model") true w1 = (Raise (FileNotFoundError msg), w2) →
  last (parts path) = Some last_part →
  load C (alternate_layout path last_part) (Some "model") true w2
    = (Raise (FileNotFoundError msg'), w3) →
  export_ckpt C path target output_path overwrite
    (load_connector_from_trainer_ckpt C) modelopt_export_kwargs kwargs w =
    mkOutcome (Raise (FileNotFoundError msg')) w3
      (evs ++ [Load path (Some "model") true;
               Load (alternate_layout path last_part) (Some "model") true]).
Proof.
  intros Hreach Hfirst Hlast Hsecond.
  apply (export_ckpt_generic_route_raise _ _ _ _ _ _ _ _ _ _ _ _ _ Hreach).
  unfold load_connector_from_trainer_ckpt, bind.
  by rewrite (load_context_not_found_twice C _ _ _ _ _ _ _ _ _
                Hfirst Hlast Hsecond).
Qed.

(** X11: when the ModelOpt route takes the checkpoint, [overwrite], the
    extra options and [load_connector] have no effect on the export: any
    two choices give the same outcome. *)
Theorem export_ckpt_modelopt_route_ignores_options
    path output_path modelopt_export_kwargs w output w1
    overwrite overwrite' (load_connector load_connector' : Path → string → M Conn)
    (kwargs kwargs' : Kwargs) :
  export_hf_checkpoint C path (effective_output_path path "hf" output_path)
    (default ∅ modelopt_export_kwargs) w = (Ret (Some output), w1) →
  export_ckpt C path "hf" output_path overwrite load_connector
    modelopt_export_kwargs kwargs w =
  export_ckpt C path "hf" output_path overwrite' load_connector'
    modelopt_export_kwargs kwargs' w.
Proof.
  intros Hroute. unfold export_ckpt.
  destruct (decide ("hf" = "hf")) as [_|Hne]; [|done].
  replace (default (path // "hf") output_path)
    with (effective_output_path path "hf" output_path)
    by by destruct output_path.
  by rewrite !(bind_call_Ret _ _ _ _ _ _ Hroute).
Qed.

(** X12: for a target other than "hf" the ModelOpt options are not used:
    any two values of [modelopt_export_kwargs] give the same outcome. *)
Theorem export_ckpt_other_target_ignores_modelopt_kwargs
    path target output_path overwrite (load_connector : Path → string → M Conn)
    modelopt_export_kwargs modelopt_export_kwargs' (kwargs : Kwargs) w :
  target ≠ "hf" →
  export_ckpt C path target output_path overwrite load_connector
    modelopt_export_kwargs kwargs w =
  export_ckpt C path target output_path overwrite load_connector
    modelopt_export_kwargs' kwargs w.
Proof.
  intros Hne. by rewrite !(export_ckpt_other_target C _ _ _ _ _ _ _ _ Hne).
Qed.

(** X13: with target "hf" and a [load_connector] that invokes no
    converter itself, an exporter is invoked only after the ModelOpt route
    has declined and the guard has found no weights/adapter_metadata.json:
    the generic exporter never runs on a checkpoint the guard sees as
    PEFT. *)
Theorem export_ckpt_hf_exporter_needs_no_adapter
    path output_path overwrite (load_connector : Path → string → M Conn)
    modelopt_export_kwargs (kwargs : Kwargs) w :
  (∀ w', count invokes_converter (events (load_connector path "hf" w')) = 0) →
  count invokes_converter
    (events (export_ckpt C path "hf" output_path overwrite load_connector
               modelopt_export_kwargs kwargs w)) ≠ 0 →
  ∃ w1,
    export_hf_checkpoint C path (effective_output_path path "hf" output_path)
      (default ∅ modelopt_export_kwargs) w = (Ret None, w1) ∧
    path_exists C (path // "weights" // "adapter_metadata.json") w1 = false.
Proof.
  intros Hlc. unfold export_ckpt.
  destruct (decide ("hf" = "hf")) as [_|Hne]; [|done].
  replace (default (path // "hf") output_path)
    with (effective_output_path path "hf" output_path)
    by by destruct output_path.
  destruct (export_hf_checkpoint C path
              (effective_output_path path "hf" output_path)
              (default ∅ modelopt_export_kwargs) w)
    as [[[output|]|e] w1] eqn:Hroute.
  - rewrite (bind_call_Ret _ _ _ _ _ _ Hroute). by cbn.
  - rewrite (bind_call_Ret _ _ _ _ _ _ Hroute). cbn [events].
    unfold bind at 1. rewrite _verify_peft_export_hf.
    destruct (path_exists C _ w1) eqn:Hmarker; cbn [result final events].
    + by cbn.
    + intros _. by exists w1.
  - rewrite (bind_call_Raise _ _ _ _ _ _ Hroute). by cbn.
Qed.

(** X14: with target "hf" the first call of [export_ckpt] is always
    [export_hf_checkpoint], on the checkpoint path, the effective output
    path and the ModelOpt options (none when the caller gave none),
    whatever the collaborators and [load_connector] do afterwards. *)
Theorem export_ckpt_hf_first_call
    path output_path overwrite (load_connector : Path → string → M Conn)
    modelopt_export_kwargs (kwargs : Kwargs) w :
  head (events (export_ckpt C path "hf" output_path overwrite load_connector
                  modelopt_export_kwargs kwargs w)) =
    Some (ExportHfCheckpoint path
            (effective_output_path path "hf" output_path)
            (default ∅ modelopt_export_kwargs)).
Proof.
  unfold export_ckpt.
  destruct (decide ("hf" = "hf")) as [_|Hne]; [|done].
  replace (default (path // "hf") output_path)
    with (effective_output_path path "hf" output_path)
    by by destruct output_path.
  destruct (export_hf_checkpoint C path
              (effective_output_path path "hf" output_path)
              (default ∅ modelopt_export_kwargs) w)
    as [[output|e] w1] eqn:Hroute.
  - by rewrite (bind_call_Ret _ _ _ _ _ _ Hroute).
  - by rewrite (bind_call_Raise _ _ _ _ _ _ Hroute).
Qed.


End Propagation.

(** ** Runs of the failure paths *)

(** X1 on an import that returns. *)
Lemma import_ckpt_returns_inv_witness :
  isinstance_ConnectorMixin collaborators GPTModel = true ∧
  ∃ imp,
    events (import_ckpt collaborators GPTModel "hf://meta-llama/Llama-3-8B"
              None false ∅ []) =
      [ModelImporter GPTModel "hf://meta-llama/Llama-3-8B";
       ImporterCall imp false None ∅;
       OnImportCkpt imp GPTModel].
Proof.
  apply (import_ckpt_returns_inv collaborators GPTModel
           "hf://meta-llama/Llama-3-8B" None false ∅ [] imported).
  reflexivity.
Defined.

(** X2: no importer for the source, and an importer that finds its output
    path taken. *)
Lemma import_ckpt_importer_failure_witness :
  import_ckpt Strict.collaborators GPTModel "" None false ∅ [] =
    mkOutcome (Raise (ValueError "No importer found for source")) []
      [ModelImporter GPTModel ""] ∧
  import_ckpt Strict.collaborators GPTModel "hf://meta-llama/Llama-3-8B"
    None false ∅ [(imported // "context" // "io.json", GPTModel)] =
    mkOutcome (Raise (OtherError "FileExistsError" "Output path exists"))
      [(imported // "context" // "io.json", GPTModel)]
      [ModelImporter GPTModel "hf://meta-llama/Llama-3-8B";
       ImporterCall (HFImporter "hf://meta-llama/Llama-3-8B") false None ∅].
Proof.
  split.
  - apply (proj1 (import_ckpt_importer_failure Strict.collaborators GPTModel
             "" None false ∅ [] eq_refl)).
    reflexivity.
  - apply (proj2 (import_ckpt_importer_failure Strict.collaborators GPTModel
             "hf://meta-llama/Llama-3-8B" None false ∅
             [(imported // "context" // "io.json", GPTModel)] eq_refl)
             (HFImporter "hf://meta-llama/Llama-3-8B")
             [(imported // "context" // "io.json", GPTModel)]);
      reflexivity.
Defined.

(** X3: the importer has written the checkpoint when the hook fails. *)
Lemma import_ckpt_hook_failure_witness :
  import_ckpt Strict.collaborators GPTModel "hf://no/tokenizer"
    None false ∅ [] =
    mkOutcome (Raise (OtherError "OSError" "Can't load tokenizer"))
      [(imported // "context" // "io.json", GPTModel)]
      [ModelImporter GPTModel "hf://no/tokenizer";
       ImporterCall (HFImporter "hf://no/tokenizer") false None ∅;
       OnImportCkpt (HFImporter "hf://no/tokenizer") GPTModel].
Proof.
  eapply (import_ckpt_hook_failure Strict.collaborators); reflexivity.
Defined.

(** X4 on a directory the loader may not read. *)
Lemma load_context_other_error_no_retry_witness :
  load_context Strict.collaborators Strict.locked None true [] =
    mkOutcome
      (Raise (OtherError "PermissionError" "Permission denied: '/locked'"))
      [] [Load Strict.locked None true].
Proof.
  apply (load_context_other_error_no_retry Strict.collaborators).
  - reflexivity.
  - intros msg. discriminate.
Defined.

(** X6 from the current directory: [Path("context")] falls back to
    [Path(".")]. *)
Lemma load_context_context_dir_falls_back_witness :
  load_context collaborators (cwd // "context") None true
    [(cwd // "io.json", GPTModel)] =
    mkOutcome (Ret GPTModel) [(cwd // "io.json", GPTModel)]
      [Load (cwd // "context") None true; Load cwd None true].
Proof.
  apply (load_context_context_dir_falls_back collaborators cwd None true
           [(cwd // "io.json", GPTModel)] "No such file: 'context'"
           [(cwd // "io.json", GPTModel)]).
  reflexivity.
Defined.

(** X7 on a checkpoint without a context directory. *)
Lemma load_context_old_layout_witness :
  load_context collaborators (ckpt // "context") (Some "model") true
    Strict.old_layout_disk =
    mkOutcome (Ret GPTModel) Strict.old_layout_disk
      [Load (ckpt // "context") (Some "model") true;
       Load ckpt (Some "model") true].
Proof.
  apply (load_context_old_layout collaborators PyObj read decode ckpt
           (Some "model") true Strict.old_layout_disk GPTModel);
    reflexivity.
Defined.

(** X8 on ModelOpt options it rejects with an error. *)
Lemma export_ckpt_modelopt_failure_witness :
  export_ckpt Strict.collaborators ckpt "hf" None false
    (load_connector_from_trainer_ckpt Strict.collaborators)
    (Some {["export_dtype" := "int3"]}) ∅ full_disk =
    mkOutcome (Raise (ValueError "Unsupported export dtype")) full_disk
      [ExportHfCheckpoint ckpt (ckpt // "hf") {["export_dtype" := "int3"]}].
Proof.
  apply (export_ckpt_modelopt_failure Strict.collaborators ckpt None).
  reflexivity.
Defined.

(** X9 on a checkpoint whose model has no converters. *)
Lemma export_ckpt_model_without_connector_witness :
  export_ckpt collaborators ckpt "hf" None false
    (load_connector_from_trainer_ckpt collaborators) None ∅ plain_disk =
    mkOutcome (Raise (ValueError not_connector_message)) plain_disk
      ([ExportHfCheckpoint ckpt (ckpt // "hf") ∅;
        PathExists (ckpt // "weights" // "adapter_metadata.json")] ++
       [Load ckpt (Some "model") true;
        Load (ckpt // "context") (Some "model") true]).
Proof.
  apply (export_ckpt_model_without_connector collaborators ckpt "hf" None
           false None ∅ plain_disk plain_disk _ PlainModule plain_disk _
           (generic_after_modelopt collaborators ckpt "hf" None None
              plain_disk plain_disk eq_refl eq_refl eq_refl));
    reflexivity.
Defined.

(** X10 on an empty disk. *)
Lemma export_ckpt_missing_context_witness :
  export_ckpt collaborators ckpt "hf-peft" None false
    (load_connector_from_trainer_ckpt collaborators) None ∅ [] =
    mkOutcome
      (Raise (FileNotFoundError "No such file: '/results/ckpt/context'")) []
      ([] ++ [Load ckpt (Some "model") true;
              Load (ckpt // "context") (Some "model") true]).
Proof.
  apply (export_ckpt_missing_context collaborators ckpt "hf-peft" None
           false None ∅ [] [] [] "No such file: '/results/ckpt'" [] "ckpt").
  - apply generic_other_target. discriminate.
  - reflexivity.
  - reflexivity.
  - reflexivity.
Defined.

(** X11 on a quantized checkpoint: neither [overwrite] nor the options
    nor the connector change the export. *)
Lemma export_ckpt_modelopt_route_ignores_options_witness :
  export_ckpt collaborators ckpt "hf" None false
    (load_connector_from_trainer_ckpt collaborators) None ∅
    quantized_peft_disk =
  export_ckpt collaborators ckpt "hf" None true
    (custom_load_connector (λ p t d, (Raise (ValueError "unused"), d)))
    None {["dtype" := "bf16"]} quantized_peft_disk.
Proof.
  apply (export_ckpt_modelopt_route_ignores_options collaborators ckpt None
           None quantized_peft_disk (ckpt // "hf") quantized_peft_disk).
  reflexivity.
Defined.

(** X12 on an export to "hf-peft". *)
Lemma export_ckpt_other_target_ignores_modelopt_kwargs_witness :
  export_ckpt collaborators ckpt "hf-peft" None false
    (load_connector_from_trainer_ckpt collaborators)
    None ∅ peft_disk =
  export_ckpt collaborators ckpt "hf-peft" None false
    (load_connector_from_trainer_ckpt collaborators)
    (Some {["export_dtype" := "int3"]}) ∅ peft_disk.
Proof.
  apply (export_ckpt_other_target_ignores_modelopt_kwargs collaborators).
  discriminate.
Defined.

(** X13 on a full checkpoint with a connector of the caller. *)
Lemma export_ckpt_hf_exporter_needs_no_adapter_witness :
  ∃ d,
    export_hf_checkpoint collaborators ckpt (ckpt // "hf") ∅ full_disk
      = (Ret None, d) ∧
    path_exists collaborators (ckpt // "weights" // "adapter_metadata.json") d
      = false.
Proof.
  apply (export_ckpt_hf_exporter_needs_no_adapter collaborators ckpt None
           false
           (custom_load_connector (λ p t d, (Ret (HFExporter t p), d)))
           None ∅ full_disk).
  - intros d. reflexivity.
  - vm_compute. discriminate.
Defined.

